(** * scripts/demo.py: a shallow embedding and its specification

    The script prints a banner, checks that [Cargo.toml] exists in the
    working directory, prints an indented preview of the directory tree and
    then several fixed lists of text.  It also defines a helper,
    [run_command], that shells out and prints what the child wrote.

    Python strings are byte strings here (UTF-8, as the source file is
    encoded); standard output is the sequence of [print] calls, each taken
    to succeed; exceptions are an explicit outcome; the file system is the
    tree below the working directory, each directory with its entries in
    enumeration order. *)

From Stdlib Require Import String Ascii List Arith Bool Lia ZArith.
From Stdlib Require Import DecimalString.
Import ListNotations.
Open Scope string_scope.
Open Scope list_scope.

Set Warnings "-register-all".

(** ** Python string operations used by the script *)

Module Str.

(** [s * n] *)
Fixpoint mul (s : string) (n : nat) : string :=
  match n with
  | O => ""
  | S k => s ++ mul s k
  end.

(** [s.replace(old, new)] for a one-character [old]. *)
Fixpoint replace (s : string) (old : ascii) (new : string) : string :=
  match s with
  | EmptyString => ""
  | String c r =>
      if Ascii.eqb c old then new ++ replace r old new
      else String c (replace r old new)
  end.

(** [s.count(sub)] for a one-character [sub]. *)
Fixpoint count (s : string) (sub : ascii) : nat :=
  match s with
  | EmptyString => 0
  | String c r => (if Ascii.eqb c sub then 1 else 0) + count r sub
  end.

(** [s.startswith(p)] *)
Definition startswith (s p : string) : bool := String.prefix p s.

(** [s.endswith(x)]: [s] is at least as long as [x] and its last
    [len(x)] characters are [x]. *)
Definition endswith (s x : string) : bool :=
  Nat.leb (String.length x) (String.length s) &&
  String.eqb (String.substring (String.length s - String.length x)
                               (String.length x) s) x.

(** [s.endswith(tuple)]: some member of the tuple is a suffix. *)
Definition endswith_any (s : string) (xs : list string) : bool :=
  existsb (endswith s) xs.

(** [str(i)] for a non-negative integer. *)
Definition of_nat (n : nat) : string :=
  NilEmpty.string_of_uint (Nat.to_uint n).

(** Format specification [{i:2d}]: decimal, right-aligned in a field of
    width two, padded with spaces. *)
Definition fmt_2d (n : nat) : string :=
  let d := of_nat n in
  mul " " (2 - String.length d) ++ d.

(** Truthiness of a string: non-empty. *)
Definition truthy (s : string) : bool :=
  match s with
  | EmptyString => false
  | String _ _ => true
  end.

End Str.

(** The double-quote character, which two of the script's literals contain. *)
Definition dq : string := String (ascii_of_nat 34) "".


(** ** Paths ([posixpath]) *)

Definition os_sep : ascii := "/"%char.

(** [os.path.join(a, b)] for two components. *)
Definition join (a b : string) : string :=
  if Str.startswith b "/" then b
  else if String.eqb a "" || Str.endswith a "/" then a ++ b
  else a ++ "/" ++ b.

(** [os.path.basename(p)]: what follows the last separator. *)
Fixpoint basename (p : string) : string :=
  match p with
  | EmptyString => ""
  | String c r =>
      if Nat.ltb 0 (Str.count r os_sep) then basename r
      else if Ascii.eqb c os_sep then r else p
  end.

(** ** The environment of one run *)

(** An entry of a directory, in the order [os.scandir] enumerates them. *)
Inductive node : Type :=
| File (name : string)
    (** a regular file, or a symlink that resolves to one *)
| Dangling (name : string)
    (** a broken symlink: [is_dir()] is false, [os.path.exists] is false *)
| Dir (name : string) (entries : list node)
    (** a directory and its own enumeration *)
| DirLink (name : string).
    (** a symlink to a directory: listed among [dirs], and not entered
        since [followlinks] is left at [False]; a directory that cannot be
        read behaves alike, [os.walk] ignoring the error *)

Definition node_name (n : node) : string :=
  match n with
  | File s | Dangling s | Dir s _ | DirLink s => s
  end.

Definition is_dir (n : node) : bool :=
  match n with
  | Dir _ _ | DirLink _ => true
  | File _ | Dangling _ => false
  end.

(** [subprocess.CompletedProcess] with [capture_output=True, text=True]. *)
Record CompletedProcess : Type := {
  returncode : Z;
  stdout : string;
  stderr : string
}.

(** What can be raised.  [except Exception] catches the instances of
    [Exception]; [KeyboardInterrupt] derives from [BaseException] only. *)
Inductive exn : Type :=
| ExceptionInst (str : string)   (** [str] is [str(e)] *)
| KeyboardInterrupt.

Definition is_Exception (e : exn) : bool :=
  match e with
  | ExceptionInst _ => true
  | KeyboardInterrupt => false
  end.

Definition exn_str (e : exn) : string :=
  match e with
  | ExceptionInst s => s
  | KeyboardInterrupt => ""
  end.

Record world : Type := {
  cwd : list node;                                  (** the working directory *)
  argv : list string;                               (** [sys.argv] *)
  subprocess_run : string -> exn + CompletedProcess (** a shell command's fate *)
}.

(** ** Programs: a trace of effects and an outcome *)

Inductive event : Type :=
| Print (line : string)     (** one [print] call: the text, then a newline *)
| Exists (path : string)    (** an [os.path.exists] query *)
| Walk (top : string)       (** a directory traversal was started *)
| Spawn (cmd : string).     (** a call of [subprocess.run] with [shell=True],
                                whether or not a process comes to exist *)

Inductive outcome (A : Type) : Type :=
| Return (a : A)
| Raise (e : exn).
Arguments Return {A} a.
Arguments Raise {A} e.

Definition prog (A : Type) : Type := world -> list event * outcome A.

Definition ret {A} (a : A) : prog A := fun _ => ([], Return a).

Definition bind {A B} (m : prog A) (k : A -> prog B) : prog B :=
  fun w =>
    match m w with
    | (t, Return a) => let (t', o) := k a w in (t ++ t', o)
    | (t, Raise e) => (t, Raise e)
    end.

Notation "x <- m ;; k" := (bind m (fun x => k))
  (at level 61, m at next level, right associativity).
Notation "m ;; k" := (bind m (fun _ => k))
  (at level 61, right associativity).

(** [for x in xs: body] *)
Fixpoint for_ {A} (xs : list A) (body : A -> prog unit) : prog unit :=
  match xs with
  | [] => ret tt
  | x :: r => body x ;; for_ r body
  end.

(** [try: body  except Exception as e: handler] *)
Definition try_except_Exception {A} (body : prog A) (handler : exn -> prog A)
  : prog A :=
  fun w =>
    match body w with
    | (t, Return a) => (t, Return a)
    | (t, Raise e) =>
        if is_Exception e
        then let (t', o) := handler e w in (t ++ t', o)
        else (t, Raise e)
    end.

Definition events {A} (m : prog A) (w : world) : list event := fst (m w).
Definition result {A} (m : prog A) (w : world) : outcome A := snd (m w).

(** The texts of the [print] calls of a trace, in order, and the bytes they
    put on standard output.  A text is one line of output, unless it holds
    a newline itself. *)
Fixpoint printed (t : list event) : list string :=
  match t with
  | [] => []
  | Print s :: r => s :: printed r
  | _ :: r => printed r
  end.

Definition newline : string := String (ascii_of_nat 10) "".

Fixpoint render (ls : list string) : string :=
  match ls with
  | [] => ""
  | l :: r => l ++ newline ++ render r
  end.

Definition stdout_lines {A} (m : prog A) (w : world) : list string :=
  printed (events m w).
Definition stdout_bytes {A} (m : prog A) (w : world) : string :=
  render (stdout_lines m w).

(** The status the interpreter exits with once the module body ends. *)
Definition exit_code (o : outcome unit) : Z :=
  match o with
  | Return _ => 0
  | Raise (ExceptionInst _) => 1
  | Raise KeyboardInterrupt => 130
  end.

(** ** Primitives *)

(** [print(s)] on a standard output that takes the text; [print_to] below
    is [print] on one that may refuse it. *)
Definition print (s : string) : prog unit := fun _ => ([Print s], Return tt).

(** [print(a, b)]: the arguments separated by one space. *)
Definition print2 (a b : string) : prog unit := print (a ++ " " ++ b).

(** [os.path.exists(name)] for a name relative to the working directory. *)
Definition exists_in (es : list node) (name : string) : bool :=
  existsb (fun n => match n with
                    | Dangling _ => false
                    | _ => String.eqb (node_name n) name
                    end) es.

Definition os_path_exists (name : string) : prog bool :=
  fun w => ([Exists name], Return (exists_in (cwd w) name)).

(** [os.walk]: top-down, one triple [(root, dirs, files)] per directory
    entered, sub-directories in enumeration order. *)
Definition triple : Type := string * list string * list string.

Definition dirs_of (es : list node) : list string :=
  map node_name (filter is_dir es).
Definition files_of (es : list node) : list string :=
  map node_name (filter (fun n => negb (is_dir n)) es).

Fixpoint walk_node (top : string) (n : node) : list triple :=
  match n with
  | Dir name es =>
      let root := join top name in
      (root, dirs_of es, files_of es) :: flat_map (walk_node root) es
  | _ => []
  end.

Definition walk_dir (root : string) (es : list node) : list triple :=
  (root, dirs_of es, files_of es) :: flat_map (walk_node root) es.

(** [os.walk(".")]; any other top is not resolved by this model and, errors
    being ignored by [os.walk], yields nothing. *)
Definition os_walk (top : string) : prog (list triple) :=
  fun w => ([Walk top],
            Return (if String.eqb top "." then walk_dir top (cwd w) else [])).

Definition subprocess_run_shell (cmd : string) : prog CompletedProcess :=
  fun w => ([Spawn cmd],
            match subprocess_run w cmd with
            | inl e => Raise e
            | inr r => Return r
            end).

(** [enumerate(xs, start)] *)
Definition enumerate {A} (xs : list A) (start : nat) : list (nat * A) :=
  combine (seq start (List.length xs)) xs.

(** ** The script *)

Definition print_banner : prog unit :=
  print (Str.mul "=" 60) ;;
  print "🚀 RUST + FOUNDRY POLLING SYSTEM DEMO" ;;
  print (Str.mul "=" 60) ;;
  print "".

Definition run_command (cmd description : string) : prog unit :=
  print ("📋 " ++ description) ;;
  print ("💻 Command: " ++ cmd) ;;
  print (Str.mul "-" 40) ;;
  try_except_Exception
    (r <- subprocess_run_shell cmd ;;
     (if Str.truthy (stdout r) then print (stdout r) else ret tt) ;;
     (if Str.truthy (stderr r) then print2 "STDERR:" (stderr r) else ret tt) ;;
     print "")
    (fun e =>
       print ("Error running command: " ++ exn_str e) ;;
       print "").

Definition commands : list (string * string) :=
  [ ("cargo check", "Validate Rust code compilation");
    ("cargo build --release", "Build optimized binary");
    ("cargo run -- --help", "Show CLI help");
    ("cd Counter && forge build", "Compile smart contracts");
    ("cd Counter && forge test", "Run smart contract tests");
    ("cd Counter && anvil", "Start local blockchain (background)");
    ("cd Counter && forge script script/DecentralizedPolls.s.sol",
     "Deploy contracts") ].

Definition features : list string :=
  [ "✅ Colored CLI output with progress indicators";
    "✅ Data export in JSON, CSV, and Table formats";
    "✅ Advanced poll analytics with visual bars";
    "✅ Comprehensive error handling";
    "✅ Time-based poll management";
    "✅ User activity tracking";
    "✅ Multi-format result visualization";
    "✅ Professional CLI experience" ].

Definition example_commands : list string :=
  [ ("cargo run -- create -q " ++ dq ++ "What's your favorite blockchain?"
       ++ dq ++ " -o " ++ dq ++ "Ethereum,Bitcoin,Solana" ++ dq ++ " -d 7")%string;
    "cargo run -- list";
    "cargo run -- vote -p 0 -o 1";
    "cargo run -- view -p 0";
    "cargo run -- results -p 0";
    "cargo run -- analytics -p 0";
    "cargo run -- export -p 0 -f json -o poll_data.json";
    "cargo run -- export -p 0 -f csv";
    "cargo run -- my-polls";
    "cargo run -- my-votes" ].

Definition workflow : list string :=
  [ "1. Start local blockchain: cd Counter && anvil";
    "2. Deploy contracts: cd Counter && forge script script/DecentralizedPolls.s.sol --rpc-url http://localhost:8545 --private-key 0xac0974bec39a17e36ba4a6b4d238ff944bacb478cbed5efcae784d7bf4f2ff80 --broadcast";
    "3. Set environment variables:";
    "   export CONTRACT_ADDRESS=<deployed_address>";
    "   export RPC_URL=http://localhost:8545";
    "4. Use the enhanced CLI with all new features!" ].

Definition next_phases : list string :=
  [ "🌐 Web Frontend (React/Next.js)";
    "🔗 Multi-chain Support (Polygon, Arbitrum)";
    "🛡️  Security Enhancements & Anti-spam";
    "⚖️  Weighted & Stake-based Voting";
    "🔌 REST API for External Integrations";
    "📱 Mobile App Support";
    "🎨 Advanced Data Visualizations";
    "🏆 Reputation & Governance System" ].

(** The suffixes a listed file may end with. *)
Definition allowed_ext : list string := [".rs"; ".sol"; ".toml"; ".json"].

Definition main : prog unit :=
  print_banner ;;
  found <- os_path_exists "Cargo.toml" ;;
  if negb found then
    print "❌ Please run this script from the project root directory!"
  else
    print "🔧 PROJECT ANALYSIS" ;;
    print (Str.mul "-" 20) ;;
    print "📁 Project Structure:" ;;
    walked <- os_walk "." ;;
    for_ walked (fun '(root, dirs, files) =>
      let level := Str.count (Str.replace root "."%char "") os_sep in
      let indent := Str.mul (Str.mul " " 2) level in
      print (indent ++ basename root ++ "/") ;;
      let subindent := Str.mul (Str.mul " " 2) (level + 1) in
      for_ (firstn 3 files) (fun file =>
        if negb (Str.startswith file ".") && Str.endswith_any file allowed_ext
        then print (subindent ++ file)
        else ret tt)) ;;
    print "" ;;
    print "🏗️  BUILD & TEST COMMANDS" ;;
    print (Str.mul "-" 25) ;;
    for_ commands (fun '(cmd, desc) =>
      print ("📋 " ++ desc) ;;
      print ("💻 " ++ cmd) ;;
      print "") ;;
    print "🎯 ENHANCED FEATURES ADDED" ;;
    print (Str.mul "-" 28) ;;
    for_ features (fun feature => print ("  " ++ feature)) ;;
    print "" ;;
    print "🚀 EXAMPLE USAGE" ;;
    print (Str.mul "-" 15) ;;
    for_ (enumerate example_commands 1) (fun '(i, cmd) =>
      print (Str.fmt_2d i ++ ". " ++ cmd)) ;;
    print "" ;;
    print "🔧 DEVELOPMENT WORKFLOW" ;;
    print (Str.mul "-" 23) ;;
    for_ workflow (fun step => print ("  " ++ step)) ;;
    print "" ;;
    print "📊 NEXT DEVELOPMENT PHASES" ;;
    print (Str.mul "-" 27) ;;
    for_ next_phases (fun phase => print ("  " ++ phase)) ;;
    print "" ;;
    print (Str.mul "=" 60) ;;
    print "🎉 Your Rust + Foundry polling system is ready for development!" ;;
    print "💡 Run any of the commands above to get started." ;;
    print (Str.mul "=" 60).

(** [if __name__ == "__main__": main()] *)
Definition script : prog unit := main.

(** ** The shape of the output, for the statements below *)

Definition banner_lines : list string :=
  [ Str.mul "=" 60; "🚀 RUST + FOUNDRY POLLING SYSTEM DEMO"; Str.mul "=" 60; "" ].

Definition error_line : string :=
  "❌ Please run this script from the project root directory!".

Definition analysis_header : list string :=
  [ "🔧 PROJECT ANALYSIS"; Str.mul "-" 20; "📁 Project Structure:" ].

(** The test a file name must pass to be listed. *)
Definition qualifies (file : string) : bool :=
  negb (Str.startswith file ".") && Str.endswith_any file allowed_ext.

Definition level (root : string) : nat :=
  Str.count (Str.replace root "."%char "") os_sep.

Definition indent_of (n : nat) : string := Str.mul (Str.mul " " 2) n.

(** The line of a directory and the lines of the files under it. *)
Definition dir_line (root : string) : string :=
  indent_of (level root) ++ basename root ++ "/".

Definition file_line (root file : string) : string :=
  indent_of (level root + 1) ++ file.

Definition dir_block (t : triple) : list string :=
  let '(root, _, files) := t in
  dir_line root :: map (file_line root) (filter qualifies (firstn 3 files)).

Definition tree_lines (ts : list triple) : list string := flat_map dir_block ts.

(** Everything printed after the tree: the five fixed lists with their
    headings, and the closing lines. *)
Definition build_section : list string :=
  [ "🏗️  BUILD & TEST COMMANDS"; Str.mul "-" 25 ] ++
  flat_map (fun '(cmd, desc) => [ ("📋 " ++ desc)%string; ("💻 " ++ cmd)%string; "" ])
           commands.

Definition features_section : list string :=
  [ "🎯 ENHANCED FEATURES ADDED"; Str.mul "-" 28 ] ++
  map (String.append "  ") features ++ [ "" ].

Definition usage_section : list string :=
  [ "🚀 EXAMPLE USAGE"; Str.mul "-" 15 ] ++
  map (fun '(i, cmd) => (Str.fmt_2d i ++ ". " ++ cmd)%string)
      (enumerate example_commands 1) ++ [ "" ].

Definition workflow_section : list string :=
  [ "🔧 DEVELOPMENT WORKFLOW"; Str.mul "-" 23 ] ++
  map (String.append "  ") workflow ++ [ "" ].

Definition phases_section : list string :=
  [ "📊 NEXT DEVELOPMENT PHASES"; Str.mul "-" 27 ] ++
  map (String.append "  ") next_phases ++ [ "" ].

Definition closing_lines : list string :=
  [ Str.mul "=" 60;
    "🎉 Your Rust + Foundry polling system is ready for development!";
    "💡 Run any of the commands above to get started.";
    Str.mul "=" 60 ].

Definition static_text : list string :=
  build_section ++ features_section ++ usage_section ++ workflow_section ++
  phases_section ++ closing_lines.

(** The directories [os.walk(".")] enters: the working directory, and every
    real sub-directory of a directory it enters. *)
Inductive visited (top : list node) : string -> list node -> Prop :=
| visited_top : visited top "." top
| visited_sub root es name sub :
    visited top root es ->
    In (Dir name sub) es ->
    visited top (join root name) sub.

(** Replacing what [sys.argv] holds, and what exit status the shell
    commands report. *)
Definition with_argv (w : world) (a : list string) : world :=
  {| cwd := cwd w; argv := a; subprocess_run := subprocess_run w |}.

Definition with_returncode (w : world) (rc : Z) : world :=
  {| cwd := cwd w;
     argv := argv w;
     subprocess_run := fun cmd =>
       match subprocess_run w cmd with
       | inl e => inl e
       | inr r => inr {| returncode := rc; stdout := stdout r; stderr := stderr r |}
       end |}.

(** The whole trace of [main]. *)
Definition main_trace (w : world) : list event :=
  map Print banner_lines ++
  Exists "Cargo.toml" ::
  (if exists_in (cwd w) "Cargo.toml"
   then map Print analysis_header ++
        Walk "." ::
        map Print (tree_lines (walk_dir "." (cwd w)) ++ "" :: static_text)
   else [Print error_line]).

(** ** Sample runs *)

Definition sh_ok : string -> exn + CompletedProcess :=
  fun _ => inr {| returncode := 0; stdout := "ok" ++ newline; stderr := "" |}.

Definition sh_missing : string -> exn + CompletedProcess :=
  fun _ => inl (ExceptionInst "[Errno 2] No such file or directory: '/bin/sh'").

Definition sh_interrupted : string -> exn + CompletedProcess :=
  fun _ => inl KeyboardInterrupt.

(** An empty working directory. *)
Definition w_empty : world :=
  {| cwd := []; argv := ["scripts/demo.py"]; subprocess_run := sh_ok |}.

(** A project root: the marker, a source directory of four files, a hidden
    directory, a link. *)
Definition w_project : world :=
  {| cwd := [ File ".gitignore"; File "Cargo.toml"; File "Cargo.lock";
              File "README.md";
              Dir "src" [ File "main.rs"; File "cli.rs"; File "abi.json";
                          File "export.rs" ];
              Dir ".git" [ File "HEAD"; File "config" ];
              DirLink "latest" ];
     argv := ["scripts/demo.py"; "--help"];
     subprocess_run := sh_ok |}.

(** The marker and one sub-directory whose first file is hidden. *)
Definition w_hidden_rs : world :=
  {| cwd := [ File "Cargo.toml";
              Dir "src" [ File ".a.rs"; File "b.rs"; File "c.rs"; File "d.rs" ] ];
     argv := ["scripts/demo.py"];
     subprocess_run := sh_ok |}.

(** The marker and one sub-directory of four ordinary [.rs] files. *)
Definition w_four_rs : world :=
  {| cwd := [ File "Cargo.toml";
              Dir "src" [ File "a.rs"; File "b.rs"; File "c.rs"; File "d.rs" ] ];
     argv := ["scripts/demo.py"];
     subprocess_run := sh_ok |}.

(** The marker and a sub-directory whose enumeration starts with a hidden
    file and goes on with four [.rs] files. *)
Definition w_env_first : world :=
  {| cwd := [ File "Cargo.toml";
              Dir "src" [ File ".env"; File "a.rs"; File "b.rs"; File "c.rs";
                          File "d.rs" ] ];
     argv := ["scripts/demo.py"];
     subprocess_run := sh_ok |}.

(** A shell whose invocation is interrupted from the keyboard. *)
Definition w_interrupted : world :=
  {| cwd := [ File "Cargo.toml" ]; argv := ["scripts/demo.py"];
     subprocess_run := sh_interrupted |}.

(** A machine without a shell. *)
Definition w_no_shell : world :=
  {| cwd := [ File "Cargo.toml" ]; argv := ["scripts/demo.py"];
     subprocess_run := sh_missing |}.

(** ** Further notions for the statements on the listing and the effects *)



(** The events of a trace other than printing. *)
Fixpoint system_calls (t : list event) : list event :=
  match t with
  | [] => []
  | Print _ :: r => system_calls r
  | e :: r => e :: system_calls r
  end.

Fixpoint last_char (s : string) : option ascii :=
  match s with
  | EmptyString => None
  | String c EmptyString => Some c
  | String _ r => last_char r
  end.

(** The real directories at and below a node. *)
Fixpoint count_dirs (n : node) : nat :=
  match n with
  | Dir _ es => S (list_sum (map count_dirs es))
  | _ => 0
  end.

(** Induction on a node with the hypothesis on every entry of a directory. *)
Fixpoint node_nested_ind (P : node -> Prop)
    (HFile : forall name, P (File name))
    (HDangling : forall name, P (Dangling name))
    (HDir : forall name es, Forall P es -> P (Dir name es))
    (HDirLink : forall name, P (DirLink name))
    (n : node) : P n :=
  match n with
  | File name => HFile name
  | Dangling name => HDangling name
  | Dir name es =>
      HDir name es
        ((fix all (l : list node) : Forall P l :=
            match l with
            | [] => Forall_nil P
            | x :: r =>
                Forall_cons x
                  (node_nested_ind P HFile HDangling HDir HDirLink x) (all r)
            end) es)
  | DirLink name => HDirLink name
  end.

(** A shell in which the command fails and complains. *)
Definition sh_fail : string -> exn + CompletedProcess :=
  fun _ => inr {| returncode := 101; stdout := "";
                  stderr := "error: could not compile `polls`" |}.

Definition w_fail : world :=
  {| cwd := [ File "Cargo.toml" ]; argv := ["scripts/demo.py"];
     subprocess_run := sh_fail |}.

(** A project with nested directories, one of them hidden. *)
Definition w_nested : world :=
  {| cwd := [ File "Cargo.toml";
              Dir "Counter"
                [ File "foundry.toml";
                  Dir "lib" [ Dir ".forge-std" [ File "package.json" ] ];
                  Dir "src" [ File "Polls.sol" ] ] ];
     argv := ["scripts/demo.py"];
     subprocess_run := sh_ok |}.

(** ** Printing that can fail *)

(** What standard output does with a text: it takes it ([None]), or the
    [print] call raises (an encoding that lacks a character, a closed
    pipe, an interrupt). *)
Definition device : Type := string -> option exn.

Definition accepting : device := fun _ => None.

Definition print_to (dev : device) (s : string) : prog unit :=
  fun _ =>
    match dev s with
    | None => ([Print s], Return tt)
    | Some e => ([], Raise e)
    end.

(** [run_command] again, on such an output.  The three heading lines and
    the two lines of the handler are printed outside the [try] body. *)
Definition run_command_on (dev : device) (cmd description : string)
  : prog unit :=
  print_to dev ("📋 " ++ description) ;;
  print_to dev ("💻 Command: " ++ cmd) ;;
  print_to dev (Str.mul "-" 40) ;;
  try_except_Exception
    (r <- subprocess_run_shell cmd ;;
     (if Str.truthy (stdout r) then print_to dev (stdout r) else ret tt) ;;
     (if Str.truthy (stderr r)
      then print_to dev ("STDERR:" ++ " " ++ stderr r) else ret tt) ;;
     print_to dev "")
    (fun e =>
       print_to dev ("Error running command: " ++ exn_str e) ;;
       print_to dev "").

(** ** Lines of the output *)

Definition newline_char : ascii := ascii_of_nat 10.

(** The lines of a byte string: what stands before each newline, and what
    follows the last one if anything does. *)
Fixpoint lines_from (acc s : string) : list string :=
  match s with
  | EmptyString => if String.eqb acc "" then [] else [acc]
  | String c r =>
      if Ascii.eqb c newline_char then acc :: lines_from "" r
      else lines_from (acc ++ String c "") r
  end.

Definition split_lines (s : string) : list string := lines_from "" s.

(** A name without a newline in it, and a tree of such names. *)
Definition one_line (s : string) : bool := Nat.eqb (Str.count s newline_char) 0.

Fixpoint one_line_names (n : node) : bool :=
  one_line (node_name n) &&
  match n with
  | Dir _ es => forallb one_line_names es
  | _ => true
  end.

(** A working directory with a file whose name runs over three lines. *)
Definition w_newline_name : world :=
  {| cwd := [ File "Cargo.toml";
              File ("a" ++ newline ++ error_line ++ newline ++ "b.rs") ];
     argv := ["scripts/demo.py"];
     subprocess_run := sh_ok |}.

(** A standard output that cannot encode the emoji of the heading lines. *)
Definition ascii_only : device :=
  fun s =>
    if forallb (fun c => Nat.ltb (nat_of_ascii c) 128) (list_ascii_of_string s)
    then None
    else Some (ExceptionInst "'ascii' codec can't encode character").

(** * Properties *)

(** ** The string operations on literals *)

Example utf8_rocket : String.length "🚀" = 4.
Proof. reflexivity. Qed.

Example fmt_2d_widths : map Str.fmt_2d [1; 9; 10; 123] = [" 1"; " 9"; "10"; "123"].
Proof. reflexivity. Qed.

Example endswith_any_allowed :
  map (fun f => Str.endswith_any f allowed_ext)
      ["lib.rs"; "Poll.sol"; "Cargo.toml"; "abi.json"; "README.md"; "rs"] =
    [true; true; true; true; false; false].
Proof. reflexivity. Qed.

Example level_of_roots :
  map level ["."; "./src"; "./.git"; "./Counter/lib/forge-std"] = [0; 1; 1; 3].
Proof. reflexivity. Qed.

Example basename_of_roots :
  map basename ["."; "./src"; "./.git"; "./Counter/lib/forge-std"] =
    ["."; "src"; ".git"; "forge-std"].
Proof. reflexivity. Qed.

(** ** Running programs *)

Section Run.
Context {A B : Type}.

Lemma bind_return (m : prog A) (k : A -> prog B) w t a t' o :
  m w = (t, Return a) -> k a w = (t', o) -> bind m k w = (t ++ t', o).
Proof. intros Hm Hk. unfold bind. now rewrite Hm, Hk. Qed.

Lemma bind_raise (m : prog A) (k : A -> prog B) w t e :
  m w = (t, Raise e) -> bind m k w = (t, Raise e).
Proof. intros Hm. unfold bind. now rewrite Hm. Qed.
End Run.

Lemma print_run s w : print s w = ([Print s], Return tt).
Proof. reflexivity. Qed.

Lemma for_run {A} (xs : list A) (body : A -> prog unit) (out : A -> list string) w :
  (forall x, In x xs -> body x w = (map Print (out x), Return tt)) ->
  for_ xs body w = (map Print (flat_map out xs), Return tt).
Proof.
  induction xs as [|x r IH]; intros H; cbn [for_ flat_map].
  - reflexivity.
  - rewrite map_app.
    apply bind_return with (a := tt).
    + apply H. now left.
    + apply IH. intros y Hy. apply H. now right.
Qed.

Lemma printed_app t1 t2 : printed (t1 ++ t2) = printed t1 ++ printed t2.
Proof.
  induction t1 as [|[s|p|p|c] r IH]; cbn; rewrite ?IH; reflexivity.
Qed.

Lemma printed_map_Print ls : printed (map Print ls) = ls.
Proof. induction ls as [|l r IH]; cbn; now rewrite ?IH. Qed.

Lemma str_app_assoc (a b c : string) : ((a ++ b) ++ c = a ++ (b ++ c))%string.
Proof. induction a as [|x a IH]; cbn; now rewrite ?IH. Qed.

Lemma render_app l1 l2 : render (l1 ++ l2) = (render l1 ++ render l2)%string.
Proof.
  induction l1 as [|l r IH]; cbn; [reflexivity|].
  now rewrite IH, !str_app_assoc.
Qed.

(** ** What [main] does *)

Lemma list_files_run root files w :
  for_ (firstn 3 files)
       (fun file =>
          if negb (Str.startswith file ".") && Str.endswith_any file allowed_ext
          then print (Str.mul (Str.mul " " 2) (level root + 1) ++ file)
          else ret tt) w
  = (map Print (map (file_line root) (filter qualifies (firstn 3 files))),
     Return tt).
Proof.
  induction (firstn 3 files) as [|f r IH]; cbn [for_ filter map].
  - reflexivity.
  - unfold qualifies at 1.
    destruct (negb (Str.startswith f ".") && Str.endswith_any f allowed_ext).
    + apply bind_return with (t := [Print (file_line root f)]) (a := tt);
        [reflexivity | exact IH].
    + apply bind_return with (t := []) (a := tt); [reflexivity | exact IH].
Qed.

Lemma main_run w : main w = (main_trace w, Return tt).
Proof.
  unfold main, main_trace.
  eapply bind_return with (a := tt) (t := map Print banner_lines);
    [reflexivity|].
  eapply bind_return with (t := [Exists "Cargo.toml"]); [reflexivity|].
  destruct (exists_in (cwd w) "Cargo.toml"); cbn [negb]; [|reflexivity].
  eapply eq_trans.
  - do 3 (eapply bind_return with (a := tt); [apply print_run|]).
    eapply bind_return; [reflexivity|].
    cbn [String.eqb Ascii.eqb Bool.eqb].
    eapply bind_return with (a := tt).
    + apply for_run with (out := dir_block).
      intros [[root dirs] files] _. cbn [dir_block map].
      eapply bind_return with (a := tt) (t := [Print (dir_line root)]);
        [reflexivity | apply list_files_run].
    + reflexivity.
  - rewrite map_app. reflexivity.
Qed.

Lemma main_events w : events main w = main_trace w.
Proof. unfold events. now rewrite main_run. Qed.

Lemma main_result w : result main w = Return tt.
Proof. unfold result. now rewrite main_run. Qed.

Lemma main_stdout_present w :
  exists_in (cwd w) "Cargo.toml" = true ->
  stdout_lines main w =
    banner_lines ++ analysis_header ++
    tree_lines (walk_dir "." (cwd w)) ++ "" :: static_text.
Proof.
  intros H. unfold stdout_lines. rewrite main_events. unfold main_trace.
  rewrite H, printed_app, printed_map_Print. f_equal.
  cbn [printed]. rewrite printed_app, printed_map_Print. f_equal.
  cbn [printed]. rewrite printed_map_Print. reflexivity.
Qed.

Lemma main_stdout_absent w :
  exists_in (cwd w) "Cargo.toml" = false ->
  stdout_lines main w = banner_lines ++ [error_line].
Proof.
  intros H. unfold stdout_lines. rewrite main_events. unfold main_trace.
  rewrite H, printed_app, printed_map_Print. reflexivity.
Qed.

(** ** The precondition check *)

(** C1, as stated, fails: in an empty working directory the marker is
    absent, yet standard output is not the error line alone; the four
    banner lines come first. *)
Lemma C1_banner_precedes_error :
  exists_in (cwd w_empty) "Cargo.toml" = false /\
  stdout_lines main w_empty <> [error_line] /\
  stdout_lines main w_empty =
    [ "============================================================";
      "🚀 RUST + FOUNDRY POLLING SYSTEM DEMO";
      "============================================================";
      "";
      "❌ Please run this script from the project root directory!" ].
Proof.
  split; [reflexivity|]. split; [|reflexivity].
  intros H. discriminate H.
Qed.

(** C1, amended: when [Cargo.toml] is absent, standard output is the four
    banner lines followed by exactly one error line and nothing else; the
    only other effect is the existence query itself, so no directory
    traversal and no subprocess take place, and [main] returns. *)
Theorem C1_missing_marker w :
  exists_in (cwd w) "Cargo.toml" = false ->
  stdout_lines main w = banner_lines ++ [error_line] /\
  events main w =
    map Print banner_lines ++ [Exists "Cargo.toml"; Print error_line] /\
  result main w = Return tt.
Proof.
  intros H. split; [now apply main_stdout_absent|]. split.
  - rewrite main_events. unfold main_trace. now rewrite H.
  - apply main_result.
Qed.

Lemma C1_missing_marker_witness :
  stdout_lines main w_empty = banner_lines ++ [error_line] /\
  events main w_empty =
    map Print banner_lines ++ [Exists "Cargo.toml"; Print error_line] /\
  result main w_empty = Return tt.
Proof. apply (C1_missing_marker w_empty). reflexivity. Defined.

(** ** The command runner *)

Lemma run_command_prefix cmd description w t o :
  try_except_Exception
    (r <- subprocess_run_shell cmd ;;
     (if Str.truthy (stdout r) then print (stdout r) else ret tt) ;;
     (if Str.truthy (stderr r) then print2 "STDERR:" (stderr r) else ret tt) ;;
     print "")
    (fun e => print ("Error running command: " ++ exn_str e) ;; print "") w
  = (t, o) ->
  run_command cmd description w =
    (Print ("📋 " ++ description) :: Print ("💻 Command: " ++ cmd) ::
     Print (Str.mul "-" 40) :: t, o).
Proof.
  intros H. unfold run_command.
  eapply eq_trans.
  - do 3 (eapply bind_return with (a := tt); [apply print_run|]).
    exact H.
  - reflexivity.
Qed.

Lemma run_command_caught cmd description w e :
  subprocess_run w cmd = inl e ->
  is_Exception e = true ->
  run_command cmd description w =
    ([ Print ("📋 " ++ description); Print ("💻 Command: " ++ cmd);
       Print (Str.mul "-" 40); Spawn cmd;
       Print ("Error running command: " ++ exn_str e); Print "" ],
     Return tt).
Proof.
  intros Hr He. apply run_command_prefix.
  unfold try_except_Exception, bind, subprocess_run_shell.
  rewrite Hr, He. reflexivity.
Qed.

Lemma run_command_uncaught cmd description w e :
  subprocess_run w cmd = inl e ->
  is_Exception e = false ->
  run_command cmd description w =
    ([ Print ("📋 " ++ description); Print ("💻 Command: " ++ cmd);
       Print (Str.mul "-" 40); Spawn cmd ],
     Raise e).
Proof.
  intros Hr He. apply run_command_prefix.
  unfold try_except_Exception, bind, subprocess_run_shell.
  rewrite Hr, He. reflexivity.
Qed.

Lemma run_command_completed cmd description w r :
  subprocess_run w cmd = inr r ->
  run_command cmd description w =
    ([ Print ("📋 " ++ description); Print ("💻 Command: " ++ cmd);
       Print (Str.mul "-" 40); Spawn cmd ] ++
     (if Str.truthy (stdout r) then [Print (stdout r)] else []) ++
     (if Str.truthy (stderr r) then [Print ("STDERR:" ++ " " ++ stderr r)] else []) ++
     [Print ""],
     Return tt).
Proof.
  intros Hr. apply run_command_prefix.
  unfold try_except_Exception, bind, subprocess_run_shell.
  rewrite Hr.
  destruct (Str.truthy (stdout r)), (Str.truthy (stderr r)); reflexivity.
Qed.

(** Rewrites a call of [run_command] whose shell outcome is among the
    hypotheses. *)
Ltac run_command_step :=
  first [ erewrite run_command_caught by eassumption
        | erewrite run_command_uncaught by eassumption
        | erewrite run_command_completed by eassumption ].

(** C3, as stated, fails: when the shell invocation is interrupted from the
    keyboard, the [KeyboardInterrupt] is not an instance of [Exception],
    the handler does not run, and [run_command] raises to its caller. *)
Lemma C3_keyboard_interrupt_escapes :
  subprocess_run w_interrupted "cargo check" = inl KeyboardInterrupt /\
  result (run_command "cargo check" "Validate Rust code compilation")
         w_interrupted = Raise KeyboardInterrupt /\
  events (run_command "cargo check" "Validate Rust code compilation")
         w_interrupted =
    [ Print "📋 Validate Rust code compilation";
      Print "💻 Command: cargo check";
      Print "----------------------------------------";
      Spawn "cargo check" ].
Proof. repeat split. Qed.

Lemma run_command_on_accepting cmd description w :
  run_command_on accepting cmd description w = run_command cmd description w.
Proof. reflexivity. Qed.

(** Case analysis of a run of [run_command_on]: on what the output does
    with each text, on the fate of the command, on the class of what was
    raised. *)
Ltac outcome_cases dev w cmd :=
  repeat first
    [ progress cbn [Str.truthy]
    | match goal with
      | |- context [dev ?s] => destruct (dev s) eqn:?
      end
    | match goal with
      | |- context [subprocess_run w cmd] =>
          destruct (subprocess_run w cmd) eqn:?
      end
    | match goal with
      | |- context [is_Exception ?e] => destruct (is_Exception e) eqn:?
      end
    | match goal with
      | |- context [Str.truthy ?s] => destruct (Str.truthy s) eqn:?
      end ];
  cbn [fst snd app].

Ltac run_on_cases dev w cmd :=
  unfold run_command_on, bind, print_to, try_except_Exception,
         subprocess_run_shell, ret;
  outcome_cases dev w cmd.

(** Closes the cases in which the output refuses a text it is assumed to
    take. *)
Ltac refused_by Hd :=
  match goal with
  | H : _ = Some _ |- _ => rewrite Hd in H by (cbn; tauto); discriminate H
  end.

Lemma run_command_on_caught dev cmd description w e :
  subprocess_run w cmd = inl e -> is_Exception e = true ->
  Forall (fun s => dev s = None)
    [ "📋 " ++ description; "💻 Command: " ++ cmd; Str.mul "-" 40;
      "Error running command: " ++ exn_str e; "" ]%string ->
  run_command_on dev cmd description w =
    ([ Print ("📋 " ++ description); Print ("💻 Command: " ++ cmd);
       Print (Str.mul "-" 40); Spawn cmd;
       Print ("Error running command: " ++ exn_str e); Print "" ],
     Return tt).
Proof.
  intros Hr He Hd. rewrite Forall_forall in Hd.
  run_on_cases dev w cmd.
  all: repeat match goal with
              | H : inl _ = inl _ |- _ => injection H as ->
              end.
  all: try refused_by Hd.
  all: congruence.
Qed.

Lemma run_command_on_escapes dev cmd description w e :
  result (run_command_on dev cmd description) w = Raise e ->
  (subprocess_run w cmd = inl e /\ is_Exception e = false) \/
  exists s, dev s = Some e.
Proof.
  unfold result. run_on_cases dev w cmd.
  all: intros H; try discriminate H.
  all: injection H as <-.
  all: first [ right; eexists; eassumption
             | left; split; [reflexivity | reflexivity]
             | exfalso; congruence ].
Qed.

Lemma run_command_on_completed dev cmd description w r :
  subprocess_run w cmd = inr r ->
  Forall (fun s => dev s = None)
   ([ "📋 " ++ description; "💻 Command: " ++ cmd; Str.mul "-" 40 ]%string ++
    (if String.eqb (stdout r) "" then [] else [stdout r]) ++
    (if String.eqb (stderr r) "" then [] else [("STDERR: " ++ stderr r)%string]) ++
    [ "" ]) ->
  result (run_command_on dev cmd description) w = Return tt /\
  stdout_lines (run_command_on dev cmd description) w =
    [ "📋 " ++ description; "💻 Command: " ++ cmd; Str.mul "-" 40 ]%string ++
    (if String.eqb (stdout r) "" then [] else [stdout r]) ++
    (if String.eqb (stderr r) "" then [] else [("STDERR: " ++ stderr r)%string]) ++
    [ "" ].
Proof.
  intros Hr Hd. rewrite Forall_forall in Hd.
  unfold result, stdout_lines, events.
  unfold run_command_on, bind, print_to, try_except_Exception,
         subprocess_run_shell, ret.
  rewrite Hr.
  destruct (stdout r) as [|c1 s1], (stderr r) as [|c2 s2];
    cbn [String.eqb Str.truthy app] in Hd |- *.
  all: outcome_cases dev w cmd.
  all: try refused_by Hd.
  all: split; reflexivity.
Qed.

(** C3, amended: for every command and description, an exception of the
    subprocess invocation that is an instance of [Exception] is caught
    and, standard output taking the text, turned into the printed line
    "Error running command: <str(e)>" and a blank line, and control returns
    normally, as it does when the command completes and its output is
    taken.  What [run_command] raises to its caller is either what the
    invocation raised outside the [Exception] hierarchy, or what a [print]
    call raised: the heading lines and the lines of the handler are printed
    outside the [try] body. *)
Theorem C3_run_command_catches_Exception dev cmd description w :
  (forall e,
     subprocess_run w cmd = inl e -> is_Exception e = true ->
     Forall (fun s => dev s = None)
       [ "📋 " ++ description; "💻 Command: " ++ cmd; Str.mul "-" 40;
         "Error running command: " ++ exn_str e; "" ]%string ->
     result (run_command_on dev cmd description) w = Return tt /\
     stdout_lines (run_command_on dev cmd description) w =
       [ "📋 " ++ description; "💻 Command: " ++ cmd; Str.mul "-" 40;
         "Error running command: " ++ exn_str e; "" ]%string) /\
  (forall r,
     subprocess_run w cmd = inr r ->
     Forall (fun s => dev s = None)
      ([ "📋 " ++ description; "💻 Command: " ++ cmd; Str.mul "-" 40 ]%string ++
    (if String.eqb (stdout r) "" then [] else [stdout r]) ++
    (if String.eqb (stderr r) "" then [] else [("STDERR: " ++ stderr r)%string]) ++
    [ "" ]) ->
     result (run_command_on dev cmd description) w = Return tt) /\
  (forall e,
     result (run_command_on dev cmd description) w = Raise e ->
     (subprocess_run w cmd = inl e /\ is_Exception e = false) \/
     exists s, dev s = Some e).
Proof.
  split; [|split].
  - intros e Hr He Hd. unfold result, stdout_lines, events.
    rewrite (run_command_on_caught dev cmd description w e Hr He Hd).
    split; reflexivity.
  - intros r Hr Hd.
    apply (run_command_on_completed dev cmd description w r Hr Hd).
  - intros e. apply run_command_on_escapes.
Qed.

Lemma C3_run_command_catches_Exception_witness :
  result (run_command_on accepting "cargo check"
            "Validate Rust code compilation") w_no_shell
    = Return tt /\
  stdout_lines (run_command_on accepting "cargo check"
                  "Validate Rust code compilation") w_no_shell =
    [ "📋 Validate Rust code compilation";
      "💻 Command: cargo check";
      "----------------------------------------";
      "Error running command: [Errno 2] No such file or directory: '/bin/sh'";
      "" ].
Proof.
  apply (proj1 (C3_run_command_catches_Exception accepting
                  "cargo check" "Validate Rust code compilation" w_no_shell)
               (ExceptionInst "[Errno 2] No such file or directory: '/bin/sh'")).
  - reflexivity.
  - reflexivity.
  - repeat constructor.
Defined.

(** On an output that cannot encode the heading, the first [print] raises
    an instance of [Exception], outside the [try] body, and the caller
    gets it: nothing is printed and [subprocess.run] is not called. *)
Example heading_print_escapes :
  run_command_on ascii_only "cargo check" "Validate Rust code compilation"
                 w_no_shell =
    ([], Raise (ExceptionInst "'ascii' codec can't encode character")).
Proof. reflexivity. Qed.

Example run_command_ok :
  stdout_lines (run_command "echo ok" "Say ok") w_empty =
    [ "📋 Say ok"; "💻 Command: echo ok";
      "----------------------------------------"; "ok" ++ newline; "" ]%string.
Proof. reflexivity. Qed.

(** ** Exit status, subprocesses, arguments *)

Lemma run_command_ignores_returncode cmd description w rc :
  run_command cmd description (with_returncode w rc) =
  run_command cmd description w.
Proof.
  destruct (subprocess_run w cmd) as [e|r] eqn:Hr.
  - assert (Hr' : subprocess_run (with_returncode w rc) cmd = inl e)
      by (cbn; now rewrite Hr).
    destruct (is_Exception e) eqn:He; do 2 run_command_step; reflexivity.
  - assert (Hr' : subprocess_run (with_returncode w rc) cmd =
                  inr {| returncode := rc; stdout := stdout r; stderr := stderr r |})
      by (cbn; now rewrite Hr).
    do 2 run_command_step. reflexivity.
Qed.

(** C4: the script exits with status 0 on every run: [main] returns
    normally whatever the working directory holds, in particular when
    [Cargo.toml] is absent and only the error line is printed; and the exit
    status a wrapped command reports reaches neither the script's own
    status nor anything [run_command] prints or returns. *)
Theorem C4_exit_code_zero :
  (forall w, result script w = Return tt /\ exit_code (result script w) = 0%Z) /\
  (forall w, exists_in (cwd w) "Cargo.toml" = false ->
     In error_line (stdout_lines script w) /\
     exit_code (result script w) = 0%Z) /\
  (forall w rc, script (with_returncode w rc) = script w) /\
  (forall w rc cmd description,
     run_command cmd description (with_returncode w rc) =
     run_command cmd description w).
Proof.
  unfold script. repeat split.
  - apply main_result.
  - now rewrite main_result.
  - rewrite main_stdout_absent by assumption. apply in_or_app. right. now left.
  - now rewrite main_result.
  - intros w rc. now rewrite !main_run.
  - intros. apply run_command_ignores_returncode.
Qed.

Lemma C4_exit_code_zero_witness :
  exists_in (cwd w_empty) "Cargo.toml" = false /\
  In error_line (stdout_lines script w_empty) /\
  exit_code (result script w_empty) = 0%Z.
Proof.
  split; [reflexivity|].
  apply (proj1 (proj2 C4_exit_code_zero) w_empty). reflexivity.
Defined.

Lemma main_trace_no_spawn w cmd : ~ In (Spawn cmd) (main_trace w).
Proof.
  unfold main_trace. intros H.
  apply in_app_or in H. destruct H as [H|[H|H]].
  - apply in_map_iff in H. destruct H as (x & Hx & _). discriminate Hx.
  - discriminate H.
  - destruct (exists_in (cwd w) "Cargo.toml").
    + apply in_app_or in H. destruct H as [H|[H|H]].
      * apply in_map_iff in H. destruct H as (x & Hx & _). discriminate Hx.
      * discriminate H.
      * apply in_map_iff in H. destruct H as (x & Hx & _). discriminate Hx.
    + destruct H as [H|[]]. discriminate H.
Qed.

Lemma run_command_spawns cmd description w :
  In (Spawn cmd) (events (run_command cmd description) w).
Proof.
  unfold events.
  destruct (subprocess_run w cmd) as [e|r] eqn:Hr.
  - destruct (is_Exception e) eqn:He; run_command_step; cbn; tauto.
  - run_command_step. cbn. tauto.
Qed.

(** C7: on every path of [main] no subprocess is spawned: whatever the
    environment, the trace of [main] holds no [Spawn] event, for a command
    of the example lists or any other.  Since every call of [run_command]
    does spawn its command, [main] never calls it. *)
Theorem C7_main_never_spawns :
  (forall w cmd, ~ In (Spawn cmd) (events main w)) /\
  (forall w cmd description,
     In (Spawn cmd) (events (run_command cmd description) w)).
Proof.
  split.
  - intros w cmd. rewrite main_events. apply main_trace_no_spawn.
  - intros. apply run_command_spawns.
Qed.

(** C10: the output does not depend on the command-line arguments: two
    runs whose working directories are the same print the same bytes,
    perform the same effects and end the same way, whatever [sys.argv]
    holds in each. *)
Theorem C10_argv_ignored w1 w2 :
  cwd w1 = cwd w2 ->
  stdout_bytes main w1 = stdout_bytes main w2 /\ main w1 = main w2.
Proof.
  intros H.
  assert (E : main w1 = main w2)
    by (rewrite !main_run; unfold main_trace; now rewrite H).
  split; [|exact E].
  unfold stdout_bytes, stdout_lines, events. now rewrite E.
Qed.

Lemma C10_argv_ignored_witness :
  argv w_project <> argv (with_argv w_project ["scripts/demo.py"]) /\
  stdout_bytes main w_project =
    stdout_bytes main (with_argv w_project ["scripts/demo.py"]) /\
  main w_project = main (with_argv w_project ["scripts/demo.py"]).
Proof.
  split; [discriminate|].
  apply (C10_argv_ignored w_project (with_argv w_project ["scripts/demo.py"])).
  reflexivity.
Defined.

(** ** The fixed text *)

(** C6: the five lists are literal data and their text is fixed: whenever
    the marker is present, standard output is the banner, the analysis
    heading, the tree, a blank line and then [static_text], a constant that
    depends on nothing.  So two runs print byte-identical text for these
    sections, whatever the two file systems are, and two runs over the same
    file system print byte-identical output altogether. *)
Theorem C6_static_text_fixed w1 w2 :
  exists_in (cwd w1) "Cargo.toml" = true ->
  exists_in (cwd w2) "Cargo.toml" = true ->
  (stdout_bytes main w1 =
     render (banner_lines ++ analysis_header ++
             tree_lines (walk_dir "." (cwd w1)) ++ [""]) ++ render static_text
   /\
   stdout_bytes main w2 =
     render (banner_lines ++ analysis_header ++
             tree_lines (walk_dir "." (cwd w2)) ++ [""]) ++ render static_text)%string
  /\ (cwd w1 = cwd w2 -> stdout_bytes main w1 = stdout_bytes main w2).
Proof.
  intros H1 H2.
  assert (shape : forall w, exists_in (cwd w) "Cargo.toml" = true ->
            stdout_bytes main w =
              (render (banner_lines ++ analysis_header ++
                       tree_lines (walk_dir "." (cwd w)) ++ [""]) ++
               render static_text)%string).
  { intros w H. unfold stdout_bytes. rewrite (main_stdout_present w H).
    rewrite <- render_app. f_equal.
    rewrite <- !app_assoc. reflexivity. }
  split; [split; now apply shape|].
  intros E. rewrite (shape w1 H1), (shape w2 H2). now rewrite E.
Qed.

Lemma C6_static_text_fixed_witness :
  (stdout_bytes main w_project =
     render (banner_lines ++ analysis_header ++
             tree_lines (walk_dir "." (cwd w_project)) ++ [""]) ++
     render static_text
   /\
   stdout_bytes main w_four_rs =
     render (banner_lines ++ analysis_header ++
             tree_lines (walk_dir "." (cwd w_four_rs)) ++ [""]) ++
     render static_text)%string
  /\ stdout_bytes main w_project =
     stdout_bytes main (with_returncode w_project 1).
Proof.
  split.
  - apply (C6_static_text_fixed w_project w_four_rs); reflexivity.
  - apply (C6_static_text_fixed w_project (with_returncode w_project 1));
      reflexivity.
Defined.

(** ** Facts about the string operations *)

Section StringFacts.

Lemma substring_all s : String.substring 0 (String.length s) s = s.
Proof. induction s as [|c r IH]; cbn; now rewrite ?IH. Qed.

Lemma substring_split s :
  forall n, n <= String.length s ->
    (String.substring 0 n s ++
     String.substring n (String.length s - n) s)%string = s.
Proof.
  induction s as [|c r IH]; intros [|n] Hn; cbn in *.
  - reflexivity.
  - lia.
  - now rewrite substring_all.
  - f_equal. apply IH. lia.
Qed.

(** [s.endswith(x)] holds only if [x] is a suffix of [s]. *)
Lemma endswith_suffix s x :
  Str.endswith s x = true -> exists p, s = (p ++ x)%string.
Proof.
  unfold Str.endswith. intros H.
  apply andb_true_iff in H. destruct H as [Hlen Heq].
  apply Nat.leb_le in Hlen. apply String.eqb_eq in Heq.
  exists (String.substring 0 (String.length s - String.length x) s).
  assert (Hs := substring_split s (String.length s - String.length x)).
  replace (String.length s - (String.length s - String.length x))
    with (String.length x) in Hs by lia.
  rewrite Heq in Hs. symmetry. apply Hs. lia.
Qed.

Lemma endswith_any_suffix s xs :
  Str.endswith_any s xs = true ->
  exists p x, In x xs /\ s = (p ++ x)%string.
Proof.
  unfold Str.endswith_any. intros H.
  apply existsb_exists in H. destruct H as (x & Hx & Hs).
  destruct (endswith_suffix _ _ Hs) as [p Hp]. now exists p, x.
Qed.

(** A name [s.startswith(".")] rejects does not begin with a dot. *)
Lemma startswith_dot_false s :
  Str.startswith s "." = false -> forall r, s <> ("." ++ r)%string.
Proof.
  intros H r ->. cbn in H. destruct r; discriminate H.
Qed.

Lemma count_no_sep_head c r :
  Str.count (String c r) os_sep = 0 ->
  Ascii.eqb c os_sep = false /\ Str.count r os_sep = 0.
Proof.
  cbn [Str.count]. destruct (Ascii.eqb c os_sep); cbn; intros H.
  - discriminate H.
  - now split.
Qed.

(** Deleting the dots of a path keeps its separators. *)
Lemma count_replace_dot s :
  Str.count (Str.replace s "."%char "") os_sep = Str.count s os_sep.
Proof.
  induction s as [|c r IH]; cbn [Str.replace Str.count]; [reflexivity|].
  destruct (Ascii.eqb c "."%char) eqn:E.
  - apply Ascii.eqb_eq in E. subst c. cbn. exact IH.
  - cbn [Str.count]. now rewrite IH.
Qed.

Lemma level_child name :
  Str.count name os_sep = 0 -> level ("./" ++ name) = 1.
Proof.
  intros H. unfold level. rewrite count_replace_dot. cbn. now rewrite H.
Qed.

Lemma basename_no_sep s : Str.count s os_sep = 0 -> basename s = s.
Proof.
  induction s as [|c r IH]; intros H; [reflexivity|].
  apply count_no_sep_head in H. destruct H as [Hc Hr].
  cbn [basename]. now rewrite Hr, Hc.
Qed.

Lemma basename_child name :
  Str.count name os_sep = 0 -> basename ("./" ++ name) = name.
Proof.
  intros H.
  change ("./" ++ name)%string with (String "." (String "/" name)).
  cbn [basename Str.count]. rewrite H. reflexivity.
Qed.

Lemma join_dot name :
  Str.count name os_sep = 0 -> join "." name = ("./" ++ name)%string.
Proof.
  intros H. unfold join.
  destruct name as [|c r]; [reflexivity|].
  apply count_no_sep_head in H. destruct H as [Hc _].
  unfold Str.startswith. cbn [String.prefix].
  destruct (ascii_dec "/" c) as [<-|_]; [discriminate Hc|reflexivity].
Qed.

End StringFacts.

(** ** The tree listing *)

Lemma qualifies_shown files f :
  In f (filter qualifies (firstn 3 files)) ->
  In f (firstn 3 files) /\
  (forall r, f <> ("." ++ r)%string) /\
  exists p x, In x allowed_ext /\ f = (p ++ x)%string.
Proof.
  intros H. apply filter_In in H. destruct H as [Hin Hq].
  unfold qualifies in Hq. apply andb_true_iff in Hq. destruct Hq as [Hs He].
  apply negb_true_iff in Hs.
  split; [exact Hin|]. split.
  - now apply startswith_dot_false.
  - now apply endswith_any_suffix.
Qed.

Lemma firstn_incl {A} n (l : list A) x : In x (firstn n l) -> In x l.
Proof.
  revert l. induction n as [|n IH]; intros [|y l] H; cbn in *; try tauto.
  destruct H as [H|H]; [now left | right; now apply IH].
Qed.

Lemma shown_at_most_three files :
  List.length (filter qualifies (firstn 3 files)) <= 3.
Proof.
  eapply Nat.le_trans; [apply filter_length_le | apply firstn_le_length].
Qed.

(** C2: when the marker is present, the listing section is, for each
    directory [os.walk] yields and in that order, the directory's line
    followed by the lines of the files shown for it; for every directory
    these files number at most three, each is one of the directory's files,
    none begins with a dot, and each ends with one of [.rs], [.sol],
    [.toml], [.json]. *)
Theorem C2_listing_is_filtered w :
  exists_in (cwd w) "Cargo.toml" = true ->
  exists shown : triple -> list string,
    stdout_lines main w =
      banner_lines ++ analysis_header ++
      flat_map (fun t => dir_line (fst (fst t)) ::
                         map (file_line (fst (fst t))) (shown t))
               (walk_dir "." (cwd w)) ++
      "" :: static_text /\
    forall t, In t (walk_dir "." (cwd w)) ->
      List.length (shown t) <= 3 /\
      forall f, In f (shown t) ->
        In f (snd t) /\
        (forall r, f <> ("." ++ r)%string) /\
        exists p x, In x allowed_ext /\ f = (p ++ x)%string.
Proof.
  intros H.
  exists (fun t => filter qualifies (firstn 3 (snd t))). split.
  - rewrite (main_stdout_present w H). do 2 f_equal.
    unfold tree_lines. f_equal. apply flat_map_ext.
    intros [[root dirs] files]. reflexivity.
  - intros t _. split; [apply shown_at_most_three|].
    intros f Hf. apply qualifies_shown in Hf.
    destruct Hf as (Hin & Hdot & Hext).
    split; [now apply firstn_incl in Hin | now split].
Qed.

Lemma C2_listing_is_filtered_witness :
  exists shown : triple -> list string,
    stdout_lines main w_project =
      banner_lines ++ analysis_header ++
      flat_map (fun t => dir_line (fst (fst t)) ::
                         map (file_line (fst (fst t))) (shown t))
               (walk_dir "." (cwd w_project)) ++
      "" :: static_text /\
    forall t, In t (walk_dir "." (cwd w_project)) ->
      List.length (shown t) <= 3 /\
      forall f, In f (shown t) ->
        In f (snd t) /\
        (forall r, f <> ("." ++ r)%string) /\
        exists p x, In x allowed_ext /\ f = (p ++ x)%string.
Proof. apply (C2_listing_is_filtered w_project). reflexivity. Defined.

Example tree_of_project :
  tree_lines (walk_dir "." (cwd w_project)) =
    [ "./"; "  Cargo.toml"; "  src/"; "    main.rs"; "    cli.rs";
      "    abi.json"; "  .git/" ].
Proof. reflexivity. Qed.

Lemma filter_length_lt {A} (p : A -> bool) (l : list A) x :
  In x l -> p x = false -> List.length (filter p l) < List.length l.
Proof.
  induction l as [|y l IH]; intros Hin Hp; [destruct Hin|].
  cbn [filter]. destruct Hin as [->|Hin].
  - rewrite Hp. cbn. apply Nat.lt_succ_r. apply filter_length_le.
  - destruct (p y); cbn; [apply -> Nat.succ_lt_mono|apply Nat.lt_lt_succ_r];
      now apply IH.
Qed.

(** C8: the files shown for a directory are the qualifying ones among the
    first three names of its file enumeration: the cut to three comes
    first, the test second.  So a directory with a hidden or non-listed
    name among its first three shows fewer than three files, however many
    qualifying files it holds. *)
Theorem C8_truncation_precedes_filter w :
  exists_in (cwd w) "Cargo.toml" = true ->
  stdout_lines main w =
    banner_lines ++ analysis_header ++
    flat_map (fun '(root, _, files) =>
                dir_line root ::
                map (file_line root) (filter qualifies (firstn 3 files)))
             (walk_dir "." (cwd w)) ++
    "" :: static_text /\
  forall root dirs files,
    In (root, dirs, files) (walk_dir "." (cwd w)) ->
    (exists f, In f (firstn 3 files) /\ qualifies f = false) ->
    List.length (filter qualifies (firstn 3 files)) < 3.
Proof.
  intros H. split.
  - rewrite (main_stdout_present w H). reflexivity.
  - intros root dirs files _ (f & Hin & Hq).
    eapply Nat.lt_le_trans.
    + eapply filter_length_lt; eassumption.
    + apply firstn_le_length.
Qed.

Lemma C8_truncation_precedes_filter_witness :
  stdout_lines main w_env_first =
    banner_lines ++ analysis_header ++
    flat_map (fun '(root, _, files) =>
                dir_line root ::
                map (file_line root) (filter qualifies (firstn 3 files)))
             (walk_dir "." (cwd w_env_first)) ++
    "" :: static_text /\
  forall root dirs files,
    In (root, dirs, files) (walk_dir "." (cwd w_env_first)) ->
    (exists f, In f (firstn 3 files) /\ qualifies f = false) ->
    List.length (filter qualifies (firstn 3 files)) < 3.
Proof. apply (C8_truncation_precedes_filter w_env_first). reflexivity. Defined.

(** Four qualifying files in the directory, two shown. *)
Example tree_of_env_first :
  List.length (filter qualifies [".env"; "a.rs"; "b.rs"; "c.rs"; "d.rs"]) = 4 /\
  tree_lines (walk_dir "." (cwd w_env_first)) =
    [ "./"; "  Cargo.toml"; "  src/"; "    a.rs"; "    b.rs" ].
Proof. split; reflexivity. Qed.

Lemma walk_node_Dir top name sub :
  walk_node top (Dir name sub) = walk_dir (join top name) sub.
Proof. reflexivity. Qed.

Lemma visited_walk top root es :
  visited top root es -> incl (walk_dir root es) (walk_dir "." top).
Proof.
  induction 1 as [|root es name sub _ IH Hin].
  - apply incl_refl.
  - intros t Ht. apply IH. unfold walk_dir at 1. right.
    apply in_flat_map. exists (Dir name sub). split; [exact Hin|].
    now rewrite walk_node_Dir.
Qed.

Lemma visited_line top root es :
  visited top root es -> In (dir_line root) (tree_lines (walk_dir "." top)).
Proof.
  intros Hv. unfold tree_lines. apply in_flat_map.
  exists (root, dirs_of es, files_of es). split.
  - apply (visited_walk _ _ _ Hv). now left.
  - now left.
Qed.

(** C9, amended: every directory the walk enters has its line printed: the
    indentation of its depth, its basename and a slash.  The walk enters
    the working directory and every sub-directory of a directory it enters,
    whatever its name and whatever it holds: no test on the name or on the
    files stands between a directory and its line, so hidden directories
    are entered and printed too. *)
Theorem C9_every_directory_printed w :
  exists_in (cwd w) "Cargo.toml" = true ->
  stdout_lines main w =
    banner_lines ++ analysis_header ++
    tree_lines (walk_dir "." (cwd w)) ++ "" :: static_text /\
  (forall root es,
     visited (cwd w) root es ->
     In (root, dirs_of es, files_of es) (walk_dir "." (cwd w)) /\
     In (indent_of (level root) ++ basename root ++ "/")%string
        (tree_lines (walk_dir "." (cwd w)))) /\
  (forall root es name sub,
     visited (cwd w) root es ->
     In (Dir name sub) es ->
     In (indent_of (level (join root name)) ++
         basename (join root name) ++ "/")%string
        (tree_lines (walk_dir "." (cwd w)))).
Proof.
  intros H. split; [now apply main_stdout_present|]. split.
  - intros root es Hv. split.
    + apply (visited_walk _ _ _ Hv). now left.
    + apply (visited_line _ _ _ Hv).
  - intros root es name sub Hv Hin.
    apply (visited_line _ _ _ (visited_sub _ _ _ _ _ Hv Hin)).
Qed.

Lemma C9_every_directory_printed_witness :
  stdout_lines main w_project =
    banner_lines ++ analysis_header ++
    tree_lines (walk_dir "." (cwd w_project)) ++ "" :: static_text /\
  (forall root es,
     visited (cwd w_project) root es ->
     In (root, dirs_of es, files_of es) (walk_dir "." (cwd w_project)) /\
     In (indent_of (level root) ++ basename root ++ "/")%string
        (tree_lines (walk_dir "." (cwd w_project)))) /\
  (forall root es name sub,
     visited (cwd w_project) root es ->
     In (Dir name sub) es ->
     In (indent_of (level (join root name)) ++
         basename (join root name) ++ "/")%string
        (tree_lines (walk_dir "." (cwd w_project)))).
Proof. apply (C9_every_directory_printed w_project). reflexivity. Defined.

(** The hidden directory of the sample project, which holds no qualifying
    file, is entered and printed. *)
Example hidden_directory_printed :
  visited (cwd w_project) "./.git" [File "HEAD"; File "config"] /\
  filter qualifies ["HEAD"; "config"] = [] /\
  (indent_of (level "./.git") ++ basename "./.git" ++ "/")%string = "  .git/" /\
  In "  .git/" (stdout_lines main w_project).
Proof.
  split; [|split; [reflexivity|split; [reflexivity|]]].
  - apply (visited_sub (cwd w_project) "." (cwd w_project) ".git"
             [File "HEAD"; File "config"]).
    + apply visited_top.
    + cbn. tauto.
  - vm_compute. tauto.
Qed.

(** ** One sub-directory of four [.rs] files *)

(** C5, as stated, fails: the four files of [src] all end in [.rs], the
    first of them is hidden, and the tree shows the second and the third
    only, not the first three. *)
Lemma C5_hidden_rs_file_not_shown :
  Forall (fun f => Str.endswith f ".rs" = true)
         [".a.rs"; "b.rs"; "c.rs"; "d.rs"] /\
  tree_lines (walk_dir "." (cwd w_hidden_rs)) =
    [ "./"; "  Cargo.toml"; "  src/"; "    b.rs"; "    c.rs" ] /\
  stdout_lines main w_hidden_rs <>
    banner_lines ++ analysis_header ++
    [ "./"; "  Cargo.toml"; "  src/"; "    .a.rs"; "    b.rs"; "    c.rs" ] ++
    "" :: static_text.
Proof.
  split; [repeat constructor|]. split; [reflexivity|].
  intros H. apply (f_equal (@List.length string)) in H.
  vm_compute in H. discriminate H.
Qed.

Lemma qualifies_rs f :
  Str.endswith f ".rs" = true -> Str.startswith f "." = false ->
  qualifies f = true.
Proof.
  intros He Hs. unfold qualifies, Str.endswith_any, allowed_ext.
  rewrite Hs. cbn [negb andb existsb]. now rewrite He.
Qed.

Lemma tree_one_subdirectory sub f1 f2 f3 f4 :
  Str.count sub os_sep = 0 ->
  Forall (fun f => Str.endswith f ".rs" = true /\ Str.startswith f "." = false)
         [f1; f2; f3; f4] ->
  tree_lines [ (".", [sub], ["Cargo.toml"]);
               (join "." sub, [], [f1; f2; f3; f4]) ] =
    [ "./"; "  Cargo.toml"; "  " ++ sub ++ "/";
      "    " ++ f1; "    " ++ f2; "    " ++ f3 ]%string.
Proof.
  intros Hsub Hfs.
  inversion_clear Hfs as [|? ? [E1 S1] Hfs2].
  inversion_clear Hfs2 as [|? ? [E2 S2] Hfs3].
  inversion_clear Hfs3 as [|? ? [E3 S3] _].
  rewrite (join_dot sub Hsub).
  unfold tree_lines. cbn [flat_map dir_block firstn filter map app].
  rewrite (qualifies_rs f1 E1 S1), (qualifies_rs f2 E2 S2),
          (qualifies_rs f3 E3 S3).
  unfold dir_line, file_line.
  rewrite (level_child sub Hsub), (basename_child sub Hsub).
  reflexivity.
Qed.

(** C5, amended: in a working directory that holds the marker and one
    sub-directory whose four files all end in [.rs] and none of which is
    hidden, the tree is the line of the working directory with the marker
    under it, then the line of the sub-directory one level in, then the
    first three of the four names, in enumeration order, one level further
    in; the fourth name is not printed. *)
Theorem C5_first_three_of_four w sub f1 f2 f3 f4 :
  Str.count sub os_sep = 0 ->
  cwd w = [File "Cargo.toml"; Dir sub [File f1; File f2; File f3; File f4]] \/
  cwd w = [Dir sub [File f1; File f2; File f3; File f4]; File "Cargo.toml"] ->
  Forall (fun f => Str.endswith f ".rs" = true /\ Str.startswith f "." = false)
         [f1; f2; f3; f4] ->
  stdout_lines main w =
    banner_lines ++ analysis_header ++
    [ "./"; "  Cargo.toml"; "  " ++ sub ++ "/";
      "    " ++ f1; "    " ++ f2; "    " ++ f3 ]%string ++
    "" :: static_text.
Proof.
  intros Hsub Hcwd Hfs.
  assert (Hmarker : exists_in (cwd w) "Cargo.toml" = true).
  { destruct Hcwd as [-> | ->]; cbn; [reflexivity|].
    now rewrite orb_true_r. }
  rewrite (main_stdout_present w Hmarker). do 2 f_equal.
  rewrite <- (tree_one_subdirectory sub f1 f2 f3 f4 Hsub Hfs).
  f_equal. destruct Hcwd as [-> | ->]; reflexivity.
Qed.

Lemma C5_first_three_of_four_witness :
  stdout_lines main w_four_rs =
    banner_lines ++ analysis_header ++
    [ "./"; "  Cargo.toml"; "  " ++ "src" ++ "/";
      "    " ++ "a.rs"; "    " ++ "b.rs"; "    " ++ "c.rs" ]%string ++
    "" :: static_text.
Proof.
  apply (C5_first_three_of_four w_four_rs "src" "a.rs" "b.rs" "c.rs" "d.rs").
  - reflexivity.
  - left. reflexivity.
  - repeat constructor.
Defined.

(** * Further properties *)

(** ** The command runner on a command that completes *)

(** X1: when [subprocess.run] returns a completed process, whatever
    status that reports, and standard output takes the text, [run_command]
    returns normally and prints, in this order: the description line, the
    command line, a rule of forty dashes, the captured output if it is not
    empty, the captured error text after "STDERR: " if it is not empty, and
    a blank line.  A command that wrote nothing yields the three heading
    lines and the blank line only. *)
Theorem run_command_prints_streams dev cmd description w r :
  subprocess_run w cmd = inr r ->
  Forall (fun s => dev s = None)
    ([ "📋 " ++ description; "💻 Command: " ++ cmd; Str.mul "-" 40 ]%string ++
     (if String.eqb (stdout r) "" then [] else [stdout r]) ++
     (if String.eqb (stderr r) "" then []
      else [("STDERR: " ++ stderr r)%string]) ++
     [ "" ]) ->
  result (run_command_on dev cmd description) w = Return tt /\
  stdout_lines (run_command_on dev cmd description) w =
    [ "📋 " ++ description; "💻 Command: " ++ cmd; Str.mul "-" 40 ]%string ++
    (if String.eqb (stdout r) "" then [] else [stdout r]) ++
    (if String.eqb (stderr r) "" then [] else [("STDERR: " ++ stderr r)%string]) ++
    [ "" ].
Proof. apply run_command_on_completed. Qed.

Lemma run_command_prints_streams_witness :
  result (run_command_on accepting "cargo build --release"
            "Build optimized binary") w_fail
    = Return tt /\
  stdout_lines (run_command_on accepting "cargo build --release"
                  "Build optimized binary") w_fail =
    [ "📋 Build optimized binary";
      "💻 Command: cargo build --release";
      "----------------------------------------";
      "STDERR: error: could not compile `polls`";
      "" ].
Proof.
  apply (run_command_prints_streams accepting
           "cargo build --release" "Build optimized binary" w_fail
           {| returncode := 101; stdout := "";
              stderr := "error: could not compile `polls`" |}).
  - reflexivity.
  - repeat constructor.
Defined.

(** X2: once standard output has taken the three heading lines,
    [run_command] calls [subprocess.run] exactly once, in every outcome of
    the call and of the later prints, with the very command it was given;
    everything after the call is printing.  It never queries or walks the
    file system. *)
Theorem run_command_spawns_once dev cmd description w :
  Forall (fun s => dev s = None)
    [ "📋 " ++ description; "💻 Command: " ++ cmd; Str.mul "-" 40 ]%string ->
  exists tail : list string,
    events (run_command_on dev cmd description) w =
      [ Print ("📋 " ++ description); Print ("💻 Command: " ++ cmd);
        Print (Str.mul "-" 40); Spawn cmd ] ++ map Print tail.
Proof.
  intros Hd. rewrite Forall_forall in Hd.
  assert (H1 := Hd ("📋 " ++ description)%string).
  assert (H2 := Hd ("💻 Command: " ++ cmd)%string).
  assert (H3 := Hd (Str.mul "-" 40)).
  unfold events, run_command_on, bind, print_to.
  rewrite H1, H2, H3 by (cbn; tauto). clear Hd H1 H2 H3.
  unfold try_except_Exception, subprocess_run_shell, bind, print_to, ret.
  outcome_cases dev w cmd.
  all: match goal with
       | |- exists tail, ?l = _ => exists (printed (skipn 4 l)); reflexivity
       end.
Qed.

Lemma run_command_spawns_once_witness :
  exists tail : list string,
    events (run_command_on accepting "cargo check"
              "Validate Rust code compilation") w_interrupted =
      [ Print "📋 Validate Rust code compilation";
        Print "💻 Command: cargo check";
        Print "----------------------------------------";
        Spawn "cargo check" ] ++ map Print tail.
Proof.
  apply (run_command_spawns_once accepting "cargo check"
           "Validate Rust code compilation" w_interrupted).
  repeat constructor.
Defined.

(** ** What [main] asks of the system *)

Lemma system_calls_app t1 t2 :
  system_calls (t1 ++ t2) = system_calls t1 ++ system_calls t2.
Proof.
  induction t1 as [|[s|p|p|c] r IH]; cbn; rewrite ?IH; reflexivity.
Qed.

Lemma system_calls_map_Print ls : system_calls (map Print ls) = [].
Proof. induction ls as [|l r IH]; cbn; [reflexivity | exact IH]. Qed.

(** X3: apart from printing, [main] does one thing always, asking whether
    [Cargo.toml] exists, and one thing more exactly when it does: a single
    walk of ["."], after the query. *)
Theorem main_system_calls w :
  system_calls (events main w) =
    Exists "Cargo.toml" ::
    (if exists_in (cwd w) "Cargo.toml" then [Walk "."] else []).
Proof.
  rewrite main_events. unfold main_trace.
  rewrite system_calls_app, system_calls_map_Print. cbn [app system_calls].
  f_equal. destruct (exists_in (cwd w) "Cargo.toml").
  - rewrite system_calls_app, system_calls_map_Print. cbn [app system_calls].
    now rewrite system_calls_map_Print.
  - reflexivity.
Qed.

(** ** The test on file names *)

Lemma str_length_app a b :
  String.length (a ++ b) = String.length a + String.length b.
Proof. induction a as [|c a IH]; cbn; now rewrite ?IH. Qed.

Lemma substring_skip p x :
  String.substring (String.length p) (String.length x) (p ++ x) = x.
Proof.
  induction p as [|c p IH]; cbn [String.length String.append].
  - apply substring_all.
  - exact IH.
Qed.

Lemma suffix_endswith p x : Str.endswith (p ++ x) x = true.
Proof.
  unfold Str.endswith. rewrite str_length_app.
  replace (String.length p + String.length x - String.length x)
    with (String.length p) by lia.
  rewrite substring_skip, String.eqb_refl, andb_true_r.
  apply Nat.leb_le. lia.
Qed.

Lemma startswith_dot_true s :
  Str.startswith s "." = true -> exists r, s = ("." ++ r)%string.
Proof.
  unfold Str.startswith.
  destruct s as [|c r]; cbn [String.prefix]; [discriminate|].
  destruct (ascii_dec "." c) as [<-|_]; [|discriminate].
  intros _. now exists r.
Qed.

Lemma qualifies_suffix f :
  qualifies f = true ->
  (forall r, f <> ("." ++ r)%string) /\
  exists p x, In x allowed_ext /\ f = (p ++ x)%string.
Proof.
  intros Hq. unfold qualifies in Hq.
  apply andb_true_iff in Hq. destruct Hq as [Hs He].
  apply negb_true_iff in Hs. split.
  - now apply startswith_dot_false.
  - now apply endswith_any_suffix.
Qed.

(** X4: a name passes the test of the listing exactly when it does not
    begin with a dot and one of [.rs], [.sol], [.toml], [.json] is a suffix
    of it.  A name that passes has a stem: at least one character, not a
    dot, stands before the suffix, so a file called just [.toml] is never
    listed. *)
Theorem qualifies_iff f :
  (qualifies f = true <->
   (forall r, f <> ("." ++ r)%string) /\
   exists p x, In x allowed_ext /\ f = (p ++ x)%string) /\
  (qualifies f = true ->
   exists c p x, c <> "."%char /\ In x allowed_ext /\
                 f = (String c p ++ x)%string).
Proof.
  pose proof (qualifies_suffix f) as fwd.
  split; [split; [exact fwd|]|].
  - intros [Hdot (p & x & Hx & ->)]. unfold qualifies.
    apply andb_true_iff. split.
    + apply negb_true_iff.
      destruct (Str.startswith (p ++ x) ".") eqn:E; [|reflexivity].
      apply startswith_dot_true in E. destruct E as [r Hr].
      now destruct (Hdot r).
    + unfold Str.endswith_any. apply existsb_exists.
      exists x. split; [exact Hx | apply suffix_endswith].
  - intros Hq. destruct (fwd Hq) as [Hdot (p & x & Hx & ->)].
    destruct p as [|c p].
    + exfalso. cbn in Hx, Hdot.
      destruct Hx as [<-|[<-|[<-|[<-|[]]]]];
        [apply (Hdot "rs") | apply (Hdot "sol")
        | apply (Hdot "toml") | apply (Hdot "json")]; reflexivity.
    + exists c, p, x. split; [|now split].
      intros ->. now apply (Hdot (p ++ x)%string).
Qed.

Lemma qualifies_iff_witness :
  exists c p x, c <> "."%char /\ In x allowed_ext /\
                "main.rs" = (String c p ++ x)%string.
Proof. apply (proj2 (qualifies_iff "main.rs")). reflexivity. Defined.

Example not_listed :
  map qualifies [".toml"; ".env.json"; "main.RS"; "Cargo.toml.bak"; "rs"] =
    [false; false; false; false; false].
Proof. reflexivity. Qed.

(** ** Levels and lines *)

(** X5: the level of a path is the number of separators in it: deleting
    the dots first changes nothing, so dots in directory names (hidden
    directories, [forge-std.old]) do not disturb the indentation. *)
Theorem level_counts_separators root : level root = Str.count root os_sep.
Proof. unfold level. apply count_replace_dot. Qed.

Lemma count_app a b c :
  Str.count (a ++ b) c = Str.count a c + Str.count b c.
Proof.
  induction a as [|x a IH]; cbn [String.append Str.count]; [reflexivity|].
  rewrite IH. apply Nat.add_assoc.
Qed.

Lemma last_char_app a b : b <> "" -> last_char (a ++ b) = last_char b.
Proof.
  intros Hb. induction a as [|x a IH]; cbn [String.append]; [reflexivity|].
  cbn [last_char]. destruct (a ++ b)%string eqn:E; [|exact IH].
  destruct a; cbn in E; [now destruct Hb | discriminate E].
Qed.










Example tree_of_nested :
  tree_lines (walk_dir "." (cwd w_nested)) =
    [ "./"; "  Cargo.toml"; "  Counter/"; "    foundry.toml"; "    lib/";
      "      .forge-std/"; "        package.json"; "    src/";
      "      Polls.sol" ].
Proof. reflexivity. Qed.

(** ** What the listing holds *)

(** X7: nothing that qualifies among the first three files of a directory
    the walk enters is left out: its name is printed, one level in from
    its directory, also when that directory is hidden. *)
Theorem qualifying_file_is_listed w root es f :
  exists_in (cwd w) "Cargo.toml" = true ->
  visited (cwd w) root es ->
  In f (firstn 3 (files_of es)) ->
  qualifies f = true ->
  In (indent_of (level root + 1) ++ f)%string (stdout_lines main w).
Proof.
  intros Hm Hv Hin Hq. rewrite (main_stdout_present w Hm).
  apply in_or_app. right. apply in_or_app. right. apply in_or_app. left.
  unfold tree_lines. apply in_flat_map.
  exists (root, dirs_of es, files_of es). split.
  - apply (visited_walk _ _ _ Hv). now left.
  - cbn [dir_block]. right. apply in_map_iff. exists f. split; [reflexivity|].
    apply filter_In. now split.
Qed.

Lemma qualifying_file_is_listed_witness :
  In (indent_of (level "./Counter/lib/.forge-std" + 1) ++ "package.json")%string
     (stdout_lines main w_nested).
Proof.
  apply (qualifying_file_is_listed w_nested "./Counter/lib/.forge-std"
           [File "package.json"] "package.json").
  - reflexivity.
  - apply (visited_sub (cwd w_nested) "./Counter/lib"
             [Dir ".forge-std" [File "package.json"]] ".forge-std").
    + apply (visited_sub (cwd w_nested) "./Counter"
               [ File "foundry.toml";
                 Dir "lib" [ Dir ".forge-std" [ File "package.json" ] ];
                 Dir "src" [ File "Polls.sol" ] ]
               "lib").
      * apply (visited_sub (cwd w_nested) "." (cwd w_nested) "Counter").
        -- apply visited_top.
        -- cbn. tauto.
      * cbn. tauto.
    + cbn. tauto.
  - cbn. tauto.
  - reflexivity.
Defined.







Example listing_size_nested :
  list_sum (map count_dirs (cwd w_nested)) = 4 /\
  List.length (tree_lines (walk_dir "." (cwd w_nested))) = 9.
Proof. split; reflexivity. Qed.

(** ** Telling the two runs apart *)

Lemma dir_line_last root : last_char (dir_line root) = Some "/"%char.
Proof.
  unfold dir_line. rewrite <- str_app_assoc.
  rewrite last_char_app by discriminate. reflexivity.
Qed.

Lemma file_line_last root f :
  qualifies f = true -> last_char (file_line root f) <> Some "!"%char.
Proof.
  intros Hq. apply qualifies_suffix in Hq.
  destruct Hq as [_ (p & x & Hx & ->)].
  unfold file_line. rewrite <- str_app_assoc.
  cbn in Hx. destruct Hx as [<-|[<-|[<-|[<-|[]]]]];
    rewrite last_char_app by discriminate; discriminate.
Qed.

Lemma tree_line_last ts l :
  In l (tree_lines ts) -> last_char l <> Some "!"%char.
Proof.
  unfold tree_lines. intros H. apply in_flat_map in H.
  destruct H as ([[root dirs] files] & _ & H).
  cbn [dir_block] in H. destruct H as [<-|H].
  - rewrite dir_line_last. discriminate.
  - apply in_map_iff in H. destruct H as (f & <- & Hf).
    apply filter_In in Hf. now apply file_line_last.
Qed.

Lemma not_in_by_eqb (x : string) (l : list string) :
  existsb (String.eqb x) l = false -> ~ In x l.
Proof.
  intros H Hin.
  assert (E : existsb (String.eqb x) l = true).
  { apply existsb_exists. exists x. split; [exact Hin | apply String.eqb_refl]. }
  rewrite E in H. discriminate H.
Qed.

Lemma error_print_iff_marker_absent w :
  In error_line (stdout_lines main w) <->
  exists_in (cwd w) "Cargo.toml" = false.
Proof.
  split.
  - intros Hin. destruct (exists_in (cwd w) "Cargo.toml") eqn:Hm;
      [exfalso|reflexivity].
    rewrite (main_stdout_present w Hm) in Hin.
    apply in_app_or in Hin. destruct Hin as [Hin|Hin].
    { revert Hin. apply not_in_by_eqb. reflexivity. }
    apply in_app_or in Hin. destruct Hin as [Hin|Hin].
    { revert Hin. apply not_in_by_eqb. reflexivity. }
    apply in_app_or in Hin. destruct Hin as [Hin|Hin].
    { apply tree_line_last in Hin. now apply Hin. }
    revert Hin. apply (not_in_by_eqb error_line ("" :: static_text)).
    reflexivity.
  - intros Hm. rewrite (main_stdout_absent w Hm).
    apply in_or_app. right. now left.
Qed.

(** X10: every run opens with the banner: the four lines of
    [print_banner] are the first four lines of standard output whether or
    not the marker is there, and at least one line follows them. *)
Theorem banner_opens_every_run w :
  exists rest, rest <> [] /\ stdout_lines main w = banner_lines ++ rest.
Proof.
  destruct (exists_in (cwd w) "Cargo.toml") eqn:Hm.
  - rewrite (main_stdout_present w Hm).
    eexists. split; [|reflexivity]. discriminate.
  - rewrite (main_stdout_absent w Hm).
    eexists. split; [|reflexivity]. discriminate.
Qed.

(** ** Lines of output, for names that hold no newline *)

Lemma str_app_nil_r s : (s ++ "")%string = s.
Proof. induction s as [|c s IH]; cbn; now rewrite ?IH. Qed.

Lemma lines_from_line l :
  forall acc rest,
    Str.count l newline_char = 0 ->
    lines_from acc (l ++ newline ++ rest) = (acc ++ l)%string :: lines_from "" rest.
Proof.
  induction l as [|c l IH]; intros acc rest Hl.
  - cbn. now rewrite str_app_nil_r.
  - cbn [Str.count] in Hl.
    destruct (Ascii.eqb c newline_char) eqn:Ec; [discriminate Hl|].
    cbn [String.append lines_from]. rewrite Ec.
    rewrite IH by exact Hl. f_equal.
    rewrite str_app_assoc. reflexivity.
Qed.

(** Splitting what was rendered gives the texts back, when none of them
    holds a newline. *)
Lemma split_lines_render ls :
  Forall (fun l => Str.count l newline_char = 0) ls ->
  split_lines (render ls) = ls.
Proof.
  unfold split_lines. induction 1 as [|l r Hl _ IH]; cbn [render].
  - reflexivity.
  - rewrite lines_from_line by exact Hl. now rewrite IH.
Qed.

Lemma one_line_count s : one_line s = true <-> Str.count s newline_char = 0.
Proof. unfold one_line. apply Nat.eqb_eq. Qed.

Lemma count_mul s c n : Str.count s c = 0 -> Str.count (Str.mul s n) c = 0.
Proof.
  intros Hs. induction n as [|n IH]; [reflexivity|].
  change (Str.mul s (S n)) with (s ++ Str.mul s n)%string.
  now rewrite count_app, Hs, IH.
Qed.

Lemma count_indent n : Str.count (indent_of n) newline_char = 0.
Proof. unfold indent_of. now apply count_mul. Qed.

Lemma count_basename p c : Str.count p c = 0 -> Str.count (basename p) c = 0.
Proof.
  induction p as [|x r IH]; intros H; [reflexivity|].
  assert (Hr : Str.count r c = 0) by (cbn [Str.count] in H; lia).
  cbn [basename].
  destruct (Nat.ltb 0 (Str.count r os_sep)); [now apply IH|].
  destruct (Ascii.eqb x os_sep); assumption.
Qed.

Lemma count_join a b :
  Str.count a newline_char = 0 -> Str.count b newline_char = 0 ->
  Str.count (join a b) newline_char = 0.
Proof.
  intros Ha Hb. unfold join.
  destruct (Str.startswith b "/"); [exact Hb|].
  destruct (String.eqb a "" || Str.endswith a "/");
    rewrite ?count_app, Ha, Hb; reflexivity.
Qed.

(** A triple whose root and file names hold no newline. *)
Lemma files_of_one_line es :
  forallb one_line_names es = true ->
  Forall (fun f => Str.count f newline_char = 0) (files_of es).
Proof.
  intros H. rewrite forallb_forall in H. apply Forall_forall.
  intros f Hf. unfold files_of in Hf. apply in_map_iff in Hf.
  destruct Hf as (n & <- & Hn). apply filter_In in Hn. destruct Hn as [Hn _].
  specialize (H n Hn). apply one_line_count.
  destruct n; cbn in H; apply andb_true_iff in H; tauto.
Qed.

Lemma walk_node_one_line n :
  forall top,
    one_line_names n = true -> Str.count top newline_char = 0 ->
    Forall (fun t : triple =>
              Str.count (fst (fst t)) newline_char = 0 /\
              Forall (fun f => Str.count f newline_char = 0) (snd t))
           (walk_node top n).
Proof.
  induction n as [name|name|name es IH|name] using node_nested_ind;
    intros top Hn Htop; cbn [walk_node]; try constructor.
  - cbn [one_line_names node_name] in Hn. apply andb_true_iff in Hn.
    destruct Hn as [Hname Hes]. apply one_line_count in Hname.
    split; [now apply count_join | now apply files_of_one_line].
  - cbn [one_line_names node_name] in Hn. apply andb_true_iff in Hn.
    destruct Hn as [Hname Hes]. apply one_line_count in Hname.
    assert (Hroot := count_join top name Htop Hname).
    apply Forall_flat_map. rewrite forallb_forall in Hes.
    rewrite Forall_forall in IH |- *.
    intros x Hx. apply IH; auto.
Qed.

Lemma walk_dir_one_line es :
  forallb one_line_names es = true ->
  Forall (fun t : triple =>
            Str.count (fst (fst t)) newline_char = 0 /\
            Forall (fun f => Str.count f newline_char = 0) (snd t))
         (walk_dir "." es).
Proof.
  intros Hes. unfold walk_dir. constructor.
  - split; [reflexivity | now apply files_of_one_line].
  - apply Forall_flat_map. rewrite forallb_forall in Hes.
    apply Forall_forall. intros x Hx.
    apply walk_node_one_line; [now apply Hes | reflexivity].
Qed.

Lemma tree_lines_one_line es :
  forallb one_line_names es = true ->
  Forall (fun l => Str.count l newline_char = 0)
         (tree_lines (walk_dir "." es)).
Proof.
  intros Hes. unfold tree_lines. apply Forall_flat_map.
  eapply Forall_impl; [|apply (walk_dir_one_line es Hes)].
  intros [[root dirs] files] [Hroot Hfiles]. cbn [fst snd] in Hroot, Hfiles.
  cbn [dir_block]. constructor.
  - unfold dir_line. rewrite !count_app, count_indent.
    rewrite (count_basename root newline_char Hroot). reflexivity.
  - apply Forall_forall. intros l Hl. apply in_map_iff in Hl.
    destruct Hl as (f & <- & Hf). apply filter_In in Hf. destruct Hf as [Hf _].
    apply firstn_incl in Hf. rewrite Forall_forall in Hfiles.
    unfold file_line. rewrite count_app, count_indent. now apply Hfiles.
Qed.

Lemma one_line_literals ls :
  forallb one_line ls = true ->
  Forall (fun l => Str.count l newline_char = 0) ls.
Proof.
  intros H. rewrite forallb_forall in H. apply Forall_forall.
  intros l Hl. apply one_line_count. now apply H.
Qed.

Lemma main_stdout_one_line w :
  forallb one_line_names (cwd w) = true ->
  Forall (fun l => Str.count l newline_char = 0) (stdout_lines main w).
Proof.
  intros Hes. destruct (exists_in (cwd w) "Cargo.toml") eqn:Hm.
  - rewrite (main_stdout_present w Hm).
    apply Forall_app. split; [now apply one_line_literals|].
    apply Forall_app. split; [now apply one_line_literals|].
    apply Forall_app. split; [now apply tree_lines_one_line|].
    apply (one_line_literals ("" :: static_text)). reflexivity.
  - rewrite (main_stdout_absent w Hm). now apply one_line_literals.
Qed.



(** X9: when no name in the tree holds a newline, the error line is a line
    of standard output exactly when [Cargo.toml] is absent: no line of the
    banner, of the tree or of the fixed text is that line.  The exit status
    being 0 either way, this line is what tells a failed run. *)
Theorem error_line_iff_marker_absent w :
  forallb one_line_names (cwd w) = true ->
  (In error_line (split_lines (stdout_bytes main w)) <->
   exists_in (cwd w) "Cargo.toml" = false).
Proof.
  intros Hes. unfold stdout_bytes.
  rewrite (split_lines_render _ (main_stdout_one_line w Hes)).
  apply error_print_iff_marker_absent.
Qed.

Lemma error_line_iff_marker_absent_witness :
  In error_line (split_lines (stdout_bytes main w_empty)) /\
  ~ In error_line (split_lines (stdout_bytes main w_nested)).
Proof.
  split.
  - apply (proj2 (error_line_iff_marker_absent w_empty eq_refl)). reflexivity.
  - intros H.
    apply (proj1 (error_line_iff_marker_absent w_nested eq_refl)) in H.
    discriminate H.
Defined.

(** Why the names must hold no newline: a qualifying file whose name runs
    over three lines puts the error line on standard output with the
    marker present. *)
Example error_line_within_a_name :
  exists_in (cwd w_newline_name) "Cargo.toml" = true /\
  In error_line (split_lines (stdout_bytes main w_newline_name)) /\
  ~ In error_line (stdout_lines main w_newline_name).
Proof.
  split; [reflexivity|]. split.
  - vm_compute. tauto.
  - intros H. apply error_print_iff_marker_absent in H. discriminate H.
Qed.

(** ** Directories listed and not entered *)

(** C9, as stated, fails: the walk of the sample project meets the
    directory [latest], a symlink, and lists it among the [dirs] of the
    working directory; it does not enter it, and no line of the output is
    [latest/], at any indentation. *)
Lemma C9_linked_directory_not_printed :
  In (DirLink "latest") (cwd w_project) /\
  (exists files, In (".", dirs_of (cwd w_project), files)
                    (walk_dir "." (cwd w_project))) /\
  In "latest" (dirs_of (cwd w_project)) /\
  forall indent, ~ In (indent ++ "latest/")%string (stdout_lines main w_project).
Proof.
  split; [cbn; tauto|]. split; [eexists; now left|]. split; [cbn; tauto|].
  intros indent Hin.
  assert (E : existsb (fun l => Str.endswith l "latest/")
                      (stdout_lines main w_project) = true).
  { apply existsb_exists. exists (indent ++ "latest/")%string.
    split; [exact Hin | apply suffix_endswith]. }
  vm_compute in E. discriminate E.
Qed.
